(** * A shallow embedding of pedalboard's [ExternalPlugin] adapter
    (src/pedalboard/ExternalPlugin.h).

    The wrapped host framework (JUCE: plugin scanning, instance creation,
    bus layouts, block processing, parameters) and the operating system
    (file existence, [uname]) are not part of this repository; they are
    the collaborators of the adapter and appear here as the fields of the
    class [PluginHost].  Everything the adapter itself does -- the global
    active-instance counter, the message-manager singleton, the order of
    native calls, the channel checks and the error messages -- is
    translated from the source. *)

From Stdlib Require Import String Ascii List ZArith Bool Lia.
Import ListNotations.
Open Scope string_scope.
Open Scope Z_scope.

(** ** Strings *)

Module Str.

(** Decimal rendering, as [std::to_string] on an [int]. *)
Fixpoint digits (fuel n : nat) (acc : string) : string :=
  match fuel with
  | O => acc
  | S f =>
      let acc' := String (ascii_of_nat (48 + Nat.modulo n 10)) acc in
      if Nat.ltb n 10 then acc' else digits f (Nat.div n 10) acc'
  end.

Definition of_nat (n : nat) : string := digits (S n) n EmptyString.

Definition of_Z (z : Z) : string :=
  if z <? 0 then "-" ++ of_nat (Z.to_nat (- z)) else of_nat (Z.to_nat z).

(** [contains s t]: [t] occurs in [s] as a substring. *)
Fixpoint contains (s t : string) : bool :=
  String.prefix t s ||
  match s with
  | EmptyString => false
  | String _ s' => contains s' t
  end.

Definition sep : ascii := "/"%char.

Fixpoint drop_separators (l : list ascii) : list ascii :=
  match l with
  | c :: l' => if Ascii.eqb c sep then drop_separators l' else l
  | [] => []
  end.

(** [juce::String::trimCharactersAtEnd (File::getSeparatorString())]:
    drop every trailing path separator. *)
Definition trim_separators_at_end (s : string) : string :=
  string_of_list_ascii (rev (drop_separators (rev (list_ascii_of_string s)))).

Definition ends_with_separator (s : string) : bool :=
  match rev (list_ascii_of_string s) with
  | c :: _ => Ascii.eqb c sep
  | [] => false
  end.

(** Index of the last occurrence of [c] in [s], [-1] when absent
    ([juce::String::lastIndexOfChar]). *)
Definition last_index_of_char (c : ascii) (s : string) : Z :=
  let fix go (l : list ascii) (i : Z) (best : Z) :=
    match l with
    | [] => best
    | x :: l' => go l' (i + 1) (if Ascii.eqb x c then i else best)
    end in
  go (list_ascii_of_string s) 0 (-1).

Definition substring_from (i : Z) (s : string) : string :=
  String.substring (Z.to_nat i) (String.length s) s.

Definition substring_between (i j : Z) (s : string) : string :=
  String.substring (Z.to_nat i) (Z.to_nat (j - i)) s.

End Str.

(** [juce::File::getFileNameWithoutExtension]. *)
Definition getFileNameWithoutExtension (fullPath : string) : string :=
  let lastSlash := Str.last_index_of_char Str.sep fullPath + 1 in
  let lastDot := Str.last_index_of_char "."%char fullPath in
  if lastSlash <? lastDot
  then Str.substring_between lastSlash lastDot fullPath
  else Str.substring_from lastSlash fullPath.

(** [juce::File::addTrailingSeparator]. *)
Definition addTrailingSeparator (p : string) : string :=
  if Str.ends_with_separator p then p else p ++ "/".

(** [juce::File::getChildFile] for a plain child name (one that neither
    starts with a separator, [~] nor [./] / [../]); the names the adapter
    passes ("Contents", the machine name with "-linux", the bundle name
    with ".so") are of this kind. *)
Definition getChildFile (p name : string) : string :=
  addTrailingSeparator p ++ name.

(** ** The host framework and the operating system *)

(** A bus as [juce::AudioProcessor::Bus] reports it. *)
Record BusInfo := mkBus { bus_enabled : bool; bus_channels : nat }.

Class PluginHost := {
  Desc : Type;                        (* juce::PluginDescription *)
  Inst : Type;                        (* juce::AudioPluginInstance *)
  Param : Type;                       (* juce::AudioProcessorParameter *)
  Blob : Type;                        (* juce::MemoryBlock *)
  Sample : Type;                      (* float *)
  default_description : Desc;         (* a default-constructed PluginDescription *)
  empty_blob : Blob;
  is_linux : bool;                    (* JUCE_LINUX *)
  (* operating system *)
  stat_exists : string -> bool;       (* stat(2) succeeds on this path *)
  absolute_path : string -> string;   (* juce::File's path normalisation *)
  uname_machine : option string;      (* uname(2): None when it fails *)
  (* juce::KnownPluginList::scanAndAddFile: the descriptions found *)
  scanAndAddFile : string -> list Desc;
  (* AudioPluginFormatManager::createPluginInstance: the instance, or
     none and the error string it wrote into [loadError] *)
  createPluginInstance : Desc -> Z -> Z -> option Inst * string;
  getStateInformation : Inst -> Blob;
  setStateInformation : Inst -> Blob -> Inst;
  instReset : Inst -> Inst;
  getName : Inst -> string;
  getBusCount : Inst -> bool -> nat;
  getBus : Inst -> bool -> nat -> option BusInfo;
  disableNonMainBuses : Inst -> Inst;
  busEnable : Inst -> bool -> nat -> bool -> Inst;
  busSetNumberOfChannels : Inst -> bool -> nat -> Z -> Inst;
  processBlock : Inst -> list (list Sample) -> list (list Sample);
  getParameters : Inst -> list Param;
  paramGetName : Param -> Z -> string
}.

Section Adapter.
Context {H : PluginHost}.

(** [juce::File::exists]: a non-empty path that [stat] finds. *)
Definition juceFileExists (fullPath : string) : bool :=
  negb (String.eqb fullPath EmptyString) && stat_exists fullPath.

(** [juce::AudioProcessor::getChannelCountOfBus]. *)
Definition channelCountOfBus (i : Inst) (isInput : bool) (k : nat) : nat :=
  match getBus i isInput k with
  | Some b => bus_channels b
  | None => 0%nat
  end.

Definition getMainBusNumInputChannels (i : Inst) : nat := channelCountOfBus i true 0.
Definition getMainBusNumOutputChannels (i : Inst) : nat := channelCountOfBus i false 0.

(** ** Exceptions and outcomes *)

Inductive Exn :=
| ImportError (msg : string)        (* pybind11::import_error *)
| InvalidArgument (msg : string)    (* std::invalid_argument *)
| RuntimeError (msg : string).      (* std::runtime_error *)

(** The result of a call: a value, an exception, or undefined behaviour
    of the C++ code (out-of-range write, null dereference, use after
    free). *)
Inductive Outcome (A : Type) :=
| Ok (a : A)
| Throw (e : Exn)
| Undefined.
#[global] Arguments Ok {A} a.
#[global] Arguments Throw {A} e.
#[global] Arguments Undefined {A}.

(** ** Global state *)

(** Calls the adapter makes into the host, in order. *)
Inductive Event :=
| MessageManagerGetInstance
| ScanFile (p : string)
| GetState
| DestroyInstance
| AdjustActiveCount (delta : Z)
| CreateInstance (d : Desc) (sampleRate blockSize : Z)
| SetState (b : Blob)
| ResetInstance
| DeleteAllAtShutdown
| MessageManagerDeleteInstance.

(** [NUM_ACTIVE_EXTERNAL_PLUGINS], whether [juce::MessageManager]'s
    singleton exists, and the calls made so far (newest first). *)
Record World := mkWorld {
  num_active : Z;
  message_manager : bool;
  trace : list Event
}.

Definition initial_world : World := mkWorld 0 false [].

(** The members of one [ExternalPlugin] object. *)
Record ExternalPlugin := mkPlugin {
  pathToPluginFile : string;
  foundPluginDescription : Desc;
  pluginInstance : option Inst
}.

Definition fresh_plugin (p : string) : ExternalPlugin :=
  mkPlugin p default_description None.

(** ** The method monad: state of the world and of [this], with
    exceptions that keep the state reached when they are thrown. *)

Definition M (A : Type) := World * ExternalPlugin -> (World * ExternalPlugin) * Outcome A.

Definition ret {A} (a : A) : M A := fun s => (s, Ok a).
Definition bind {A B} (m : M A) (k : A -> M B) : M B :=
  fun s => match m s with
           | (s', Ok a) => k a s'
           | (s', Throw e) => (s', Throw e)
           | (s', Undefined) => (s', Undefined)
           end.
Definition throw {A} (e : Exn) : M A := fun s => (s, Throw e).

Definition get_this : M ExternalPlugin := fun s => (s, Ok (snd s)).
Definition put_this (h : ExternalPlugin) : M unit := fun s => ((fst s, h), Ok tt).
Definition get_world : M World := fun s => (s, Ok (fst s)).
Definition put_world (w : World) : M unit := fun s => ((w, snd s), Ok tt).

Notation "x <- m ;; k" := (bind m (fun x => k)) (at level 61, m at next level, right associativity).
Notation "m ;;; k" := (bind m (fun _ => k)) (at level 61, right associativity).

Definition emit (e : Event) : M unit :=
  w <- get_world ;;
  put_world (mkWorld (num_active w) (message_manager w) (e :: trace w)).

(** [NUM_ACTIVE_EXTERNAL_PLUGINS += d]. *)
Definition add_active (d : Z) : M unit :=
  w <- get_world ;;
  put_world (mkWorld (num_active w + d) (message_manager w) (AdjustActiveCount d :: trace w)).

(** [juce::MessageManager::getInstance()] creates the singleton if needed. *)
Definition messageManagerGetInstance : M unit :=
  w <- get_world ;;
  put_world (mkWorld (num_active w) true (MessageManagerGetInstance :: trace w)).

Definition messageManagerDeleteInstance : M unit :=
  w <- get_world ;;
  put_world (mkWorld (num_active w) false (MessageManagerDeleteInstance :: trace w)).

Definition set_instance (i : option Inst) : M unit :=
  h <- get_this ;;
  put_this (mkPlugin (pathToPluginFile h) (foundPluginDescription h) i).

Definition set_description (d : Desc) : M unit :=
  h <- get_this ;;
  put_this (mkPlugin (pathToPluginFile h) d (pluginInstance h)).

(** [pluginInstance.reset()]: deletes the instance if there is one. *)
Definition resetPluginInstance : M unit :=
  h <- get_this ;;
  match pluginInstance h with
  | Some _ => emit DestroyInstance ;;; set_instance None
  | None => ret tt
  end.

(** ** Loading *)

Definition ExternalLoadSampleRate : Z := 44100.
Definition ExternalLoadMaximumBlockSize : Z := 8192.

(** [ExternalPlugin::reinstantiatePlugin]. *)
Definition reinstantiatePlugin : M unit :=
  h <- get_this ;;
  savedState <-
    match pluginInstance h with
    | Some i =>
        emit GetState ;;;
        (* under EXTERNAL_PLUGIN_MUTEX *)
        resetPluginInstance ;;;
        add_active (-1) ;;;
        ret (getStateInformation i)
    | None => ret empty_blob
    end ;;
  h <- get_this ;;
  let d := foundPluginDescription h in
  let '(created, loadError) :=
    createPluginInstance d ExternalLoadSampleRate ExternalLoadMaximumBlockSize in
  emit (CreateInstance d ExternalLoadSampleRate ExternalLoadMaximumBlockSize) ;;;
  set_instance created ;;;
  match created with
  | None =>
      throw (ImportError ("Unable to load plugin " ++ pathToPluginFile h ++ ": "
                          ++ loadError))
  | Some i =>
      add_active 1 ;;;
      emit (SetState savedState) ;;;
      let i := setStateInformation i savedState in
      set_instance (Some i) ;;;
      emit ResetInstance ;;;
      set_instance (Some (instReset i))
  end.

(** The hint of the Linux build: the shared object expected inside the
    bundle. *)
Definition sharedObjectPath (pluginFileStripped : string) : string :=
  let machineName := match uname_machine with Some m => m | None => EmptyString end in
  let pluginBundle := absolute_path pluginFileStripped in
  getChildFile
    (getChildFile (getChildFile pluginBundle "Contents") (machineName ++ "-linux"))
    (getFileNameWithoutExtension pluginBundle ++ ".so").

Definition dquote : string := String (ascii_of_nat 34) EmptyString.

Definition noDescriptionError (path pluginFileStripped : string) : Exn :=
  if is_linux then
    ImportError ("Unable to load plugin " ++ path ++
                 ": unsupported plugin format or load failure. Plugin files or " ++
                 "shared library dependencies may be missing. (Try running `ldd " ++ dquote ++
                 sharedObjectPath pluginFileStripped ++ dquote ++ "` to " ++
                 "see which dependencies might be missing.).")
  else
    ImportError ("Unable to load plugin " ++ path ++
                 ": unsupported plugin format or load failure.").

(** The constructor [ExternalPlugin::ExternalPlugin], run on the object
    [fresh_plugin path]. *)
Definition construct : M unit :=
  messageManagerGetInstance ;;;
  h <- get_this ;;
  let path := pathToPluginFile h in
  let pluginFileStripped := Str.trim_separators_at_end path in
  if negb (juceFileExists pluginFileStripped) then
    throw (ImportError ("Unable to load plugin " ++ path ++ ": plugin file not found."))
  else
    emit (ScanFile pluginFileStripped) ;;;
    match scanAndAddFile pluginFileStripped with
    | d :: _ => set_description d ;;; reinstantiatePlugin
    | [] => throw (noDescriptionError path pluginFileStripped)
    end.

(** The destructor [ExternalPlugin::~ExternalPlugin]. *)
Definition destruct_plugin : M unit :=
  resetPluginInstance ;;;
  add_active (-1) ;;;
  w <- get_world ;;
  if num_active w =? 0 then
    emit DeleteAllAtShutdown ;;; messageManagerDeleteInstance
  else ret tt.

(** ** Channel negotiation *)

(** [for (int k = from; k < getBusCount(isInput); k++)
      getBus(isInput, k)->enable(false);] -- enabling or disabling a bus
    never changes the number of buses, so the loop runs at most
    [getBusCount] times. *)
Fixpoint disableBusesFrom (fuel : nat) (isInput : bool) (k : nat) (i : Inst) : Inst :=
  match fuel with
  | O => i
  | S f =>
      if Nat.ltb k (getBusCount i isInput)
      then disableBusesFrom f isInput (S k) (busEnable i isInput k false)
      else i
  end.

Definition undefined {A} : M A := fun s => (s, Undefined).

(** [ExternalPlugin::setNumChannels]. *)
Definition setNumChannels (numChannels : Z) : M unit :=
  h <- get_this ;;
  match pluginInstance h with
  | None => ret tt
  | Some i0 =>
      let i1 := disableNonMainBuses i0 in
      let mainInputBus := getBus i1 true 0 in
      let mainOutputBus := getBus i1 false 0 in
      match mainInputBus with
      | None =>
          set_instance (Some i1) ;;;
          throw (InvalidArgument
                   ("Plugin '" ++ getName i1 ++
                    "' does not accept audio input. It may be an instrument plug-in " ++
                    "and not an audio effect processor."))
      | Some _ =>
          let i2 := disableBusesFrom (getBusCount i1 true) true 1 i1 in
          let i3 := disableBusesFrom (getBusCount i2 false) false 1 i2 in
          let i4 := busSetNumberOfChannels i3 true 0 numChannels in
          match mainOutputBus with
          | None =>
              (* mainOutputBus->setNumberOfChannels on a null pointer *)
              set_instance (Some i4) ;;; undefined
          | Some _ =>
              let i5 := busSetNumberOfChannels i4 false 0 numChannels in
              set_instance (Some i5) ;;;
              let nIn := channelCountOfBus i5 true 0 in
              let nOut := channelCountOfBus i5 false 0 in
              if negb (Z.of_nat nIn =? numChannels) || negb (Z.of_nat nOut =? numChannels)
              then throw (InvalidArgument
                            ("Plugin '" ++ getName i5 ++
                             "' does not support " ++ Str.of_Z numChannels ++
                             "-channel input and output. (Main bus currently expects " ++
                             Str.of_nat nIn ++ " input channels and " ++
                             Str.of_nat nOut ++ " output channels.)"))
              else ret tt
          end
      end
  end.

(** ** Block processing *)

(** [juce::dsp::ProcessContextReplacing<float>]: the caller's blocks, one
    list of samples per channel. *)
Record ProcessContext := mkContext {
  usesSeparateInputAndOutputBlocks : bool;
  inputBlock : list (list Sample);
  outputBlock : list (list Sample)
}.

Definition numSamples (b : list (list Sample)) : nat :=
  match b with c :: _ => length c | [] => 0%nat end.

(** An entry of [channelPointers]: null, the caller's channel [k], or
    the data of a scratch [dummyChannel] that was destroyed at the end of
    its loop iteration ([push_back] stored a copy).  A scratch channel of
    no samples holds no element, so nothing freed can be accessed through
    it: [EmptyScratch]. *)
Inductive ChannelPtr := NullPtr | CallerChannel (k : nat) | FreedScratch | EmptyScratch.

(** [channelPointers[i] = dummyChannel.data()] for a scratch channel of
    [numSamples] samples. *)
Definition scratchPointer (numSamples : nat) : ChannelPtr :=
  if Nat.eqb numSamples 0 then EmptyScratch else FreedScratch.

(** [v[k] = x] on a [std::vector]; out of range is undefined. *)
Fixpoint vector_set {A} (v : list A) (k : nat) (x : A) : option (list A) :=
  match v, k with
  | [], _ => None
  | _ :: v', O => Some (x :: v')
  | y :: v', S k' => option_map (cons y) (vector_set v' k' x)
  end.

Fixpoint set_each (ks : list nat) (f : nat -> ChannelPtr) (v : list ChannelPtr)
  : option (list ChannelPtr) :=
  match ks with
  | [] => Some v
  | k :: ks' =>
      match vector_set v k (f k) with
      | Some v' => set_each ks' f v'
      | None => None
      end
  end.

Definition pluginBufferChannelCount (i : Inst) : nat :=
  fold_left (fun acc k =>
               match getBus i true k with
               | Some b => if bus_enabled b then (acc + bus_channels b)%nat else acc
               | None => acc
               end)
            (seq 0 (getBusCount i true)) 0%nat.

(** The channels the plugin works on, or none when a pointer is null or
    points to freed storage. *)
Fixpoint resolve (block : list (list Sample)) (ptrs : list ChannelPtr)
  : option (list (list Sample)) :=
  match ptrs with
  | [] => Some []
  | CallerChannel k :: ps =>
      option_map (cons (nth k block [])) (resolve block ps)
  | EmptyScratch :: ps =>
      option_map (cons []) (resolve block ps)
  | _ :: _ => None
  end.

(** [ExternalPlugin::process]: the caller's output block after the call
    (it is modified in place) and the outcome. *)
Definition process (inst : option Inst) (context : ProcessContext)
  : list (list Sample) * Outcome unit :=
  let block := outputBlock context in
  match inst with
  | None => (block, Ok tt)
  | Some i =>
      if usesSeparateInputAndOutputBlocks context then
        (block, Throw (RuntimeError ("Not implemented yet - " ++
                                     "no support for using separate " ++
                                     "input and output blocks.")))
      else
        let pc := pluginBufferChannelCount i in
        let n := length block in
        match set_each (seq 0 n) CallerChannel (repeat NullPtr pc) with
        | None => (block, Undefined)
        | Some ptrs =>
            match set_each (seq n (pc - n)) (fun _ => scratchPointer (numSamples block)) ptrs with
            | None => (block, Undefined)
            | Some ptrs =>
                if negb (Nat.eqb (getMainBusNumInputChannels i) n) then
                  (block, Throw (InvalidArgument
                    ("Plugin '" ++ getName i ++ "' was instantiated with " ++
                     Str.of_nat (getMainBusNumInputChannels i) ++
                     "-channel input, but data provided was " ++
                     Str.of_nat n ++ "-channel.")))
                else if Nat.ltb (getMainBusNumOutputChannels i) n then
                  (block, Throw (InvalidArgument
                    ("Plugin '" ++ getName i ++ "' produces " ++
                     Str.of_nat (getMainBusNumOutputChannels i) ++
                     "-channel output, but data provided was " ++
                     Str.of_nat n ++
                     "-channel. (The number of channels returned must match the " ++
                     "number of channels passed in.)")))
                else
                  match resolve block ptrs with
                  | None => (block, Undefined)
                  | Some channels =>
                      let out := processBlock i channels in
                      (map (fun k => nth k out (nth k block [])) (seq 0 n), Ok tt)
                  end
            end
        end
  end.

(** ** Parameters *)

Fixpoint findParameter (params : list Param) (name : string) : option Param :=
  match params with
  | [] => None
  | p :: ps => if String.eqb (paramGetName p 512) name then Some p else findParameter ps name
  end.

(** [ExternalPlugin::getParameter]; [None] is the null pointer (Python's
    [None]).  Without an instance, [pluginInstance->getParameters()]
    dereferences null. *)
Definition getParameter (inst : option Inst) (name : string) : Outcome (option Param) :=
  match inst with
  | None => Undefined
  | Some i => Ok (findParameter (getParameters i) name)
  end.

(** ** Several plugin objects sharing the global state *)

Record Sys := mkSys { sys_world : World; live : list ExternalPlugin }.

Inductive Op := Construct (path : string) | Destroy (k : nat).

Fixpoint remove_nth {A} (k : nat) (l : list A) : list A :=
  match l, k with
  | [], _ => []
  | _ :: l', O => l'
  | x :: l', S k' => x :: remove_nth k' l'
  end.

(** A constructor that throws frees the object without running its
    destructor. *)
Definition step (s : Sys) (op : Op) : Sys :=
  match op with
  | Construct p =>
      match construct (sys_world s, fresh_plugin p) with
      | ((w, h), Ok _) => mkSys w (live s ++ [h])
      | ((w, _), _) => mkSys w (live s)
      end
  | Destroy k =>
      match nth_error (live s) k with
      | Some h => mkSys (fst (fst (destruct_plugin (sys_world s, h)))) (remove_nth k (live s))
      | None => s
      end
  end.

Definition run (s : Sys) (ops : list Op) : Sys := fold_left step ops s.

Definition initial_sys : Sys := mkSys initial_world [].

End Adapter.

(** ** A concrete host, for running the model on examples *)

Module Toy.

(** A plugin instance of the toy host: its name, its input and output
    buses, its saved state and the channel counts its main buses accept. *)
Record TInst := mkTInst {
  t_name : string;
  t_in : list BusInfo;
  t_out : list BusInfo;
  t_state : string;
  t_supported : list nat
}.

Fixpoint update_nth {A} (k : nat) (f : A -> A) (l : list A) : list A :=
  match l, k with
  | [], _ => []
  | x :: l', O => f x :: l'
  | x :: l', S k' => x :: update_nth k' f l'
  end.

Definition with_buses (i : TInst) (isInput : bool) (f : list BusInfo -> list BusInfo) : TInst :=
  if isInput then mkTInst (t_name i) (f (t_in i)) (t_out i) (t_state i) (t_supported i)
  else mkTInst (t_name i) (t_in i) (f (t_out i)) (t_state i) (t_supported i).

Definition set_enabled (b : bool) (x : BusInfo) : BusInfo := mkBus b (bus_channels x).

Definition disable_tail (l : list BusInfo) : list BusInfo :=
  match l with [] => [] | x :: l' => x :: map (set_enabled false) l' end.

(** "Gain" and "Mix" are stereo effects; "Synth" has no audio input;
    any other description fails to load. *)
Definition gain : TInst :=
  mkTInst "Gain" [mkBus true 2; mkBus true 2] [mkBus true 2] EmptyString [1; 2]%nat.

Definition synth : TInst :=
  mkTInst "Synth" [] [mkBus true 2] EmptyString [2]%nat.

Definition create (d : string) : option TInst * string :=
  if String.eqb d "Gain" then (Some gain, EmptyString)
  else if String.eqb d "Synth" then (Some synth, EmptyString)
  else (None, "Unable to load VST-3 plug-in file").

(** The toy host, given the paths [stat] finds, what a scan of each path
    yields, and whether this is the Linux build. *)
Definition host (files : list string) (scans : list (string * list string)) (linux : bool)
  : PluginHost := {|
  Desc := string;
  Inst := TInst;
  Param := string;
  Blob := string;
  Sample := Z;
  default_description := EmptyString;
  empty_blob := EmptyString;
  is_linux := linux;
  stat_exists := fun p => existsb (String.eqb p) files;
  absolute_path := fun p => p;
  uname_machine := Some "x86_64";
  scanAndAddFile := fun p =>
    match find (fun e => String.eqb (fst e) p) scans with
    | Some (_, ds) => ds
    | None => []
    end;
  createPluginInstance := fun d _ _ => create d;
  getStateInformation := t_state;
  setStateInformation := fun i b =>
    mkTInst (t_name i) (t_in i) (t_out i) b (t_supported i);
  instReset := fun i => i;
  getName := t_name;
  getBusCount := fun i isInput => length (if isInput then t_in i else t_out i);
  getBus := fun i isInput k => nth_error (if isInput then t_in i else t_out i) k;
  disableNonMainBuses := fun i => with_buses (with_buses i true disable_tail) false disable_tail;
  busEnable := fun i isInput k b => with_buses i isInput (update_nth k (set_enabled b));
  busSetNumberOfChannels := fun i isInput k n =>
    if existsb (fun c => Z.of_nat c =? n) (t_supported i)
    then with_buses i isInput (update_nth k (fun x => mkBus (bus_enabled x) (Z.to_nat n)))
    else i;
  processBlock := fun _ chans => map (map (fun x => 2 * x)) chans;
  getParameters := fun _ => ["Gain"; "Mix"; "Gain"];
  paramGetName := fun p _ => p
|}.

Definition stereo : TInst :=
  mkTInst "Gain" [mkBus true 2] [mkBus true 2] "gain=0.5" [1; 2]%nat.

End Toy.

(** ** The remaining members of [ExternalPlugin] and the plugin locator *)

Section Members.
Context {H : PluginHost}.
Local Notation "x <- m ;; k" := (bind m (fun x => k)) (at level 61, m at next level, right associativity).
Local Notation "m ;;; k" := (bind m (fun _ => k)) (at level 61, right associativity).

(** [ExternalPlugin::getNumChannels]. *)
Definition getNumChannels (h : ExternalPlugin) : nat :=
  match pluginInstance h with
  | None => 0%nat
  | Some i =>
      match getBus i true 0 with
      | None => 0%nat
      | Some b => bus_channels b
      end
  end.

(** [ExternalPlugin::getParameters] (the [_parameters] property): a copy
    of the instance's parameter list; without an instance it dereferences
    null. *)
Definition pluginParameters (inst : option Inst) : Outcome (list Param) :=
  match inst with
  | None => Undefined
  | Some i => Ok (map (fun parameter => parameter) (getParameters i))
  end.

(** The [name] property of a parameter in the Python bindings. *)
Definition parameterName (p : Param) : string := paramGetName p 512.

(** The implicit conversion of a [uint32] to [int]. *)
Definition uint32_to_int (x : Z) : Z := if x <? 2 ^ 31 then x else x - 2 ^ 32.

(** [ExternalPlugin::reset], declared [noexcept]: an exception escaping
    from [reinstantiatePlugin] ends the process (std::terminate). *)
Inductive ResetOutcome := ResetReturned | Terminated (e : Exn) | ResetUndefined.

Definition reset_body : M unit :=
  h <- get_this ;;
  match pluginInstance h with
  | Some i => emit ResetInstance ;;; set_instance (Some (instReset i)) ;;; reinstantiatePlugin
  | None => ret tt
  end.

Definition reset_plugin (s : World * ExternalPlugin) : (World * ExternalPlugin) * ResetOutcome :=
  match reset_body s with
  | (s', Ok _) => (s', ResetReturned)
  | (s', Throw e) => (s', Terminated e)
  | (s', Undefined) => (s', ResetUndefined)
  end.

End Members.

(** [juce::dsp::ProcessSpec]; the sample rate is a [double], kept
    abstract. *)
Record ProcessSpec (Rate : Type) := mkSpec {
  sampleRate : Rate;
  maximumBlockSize : Z;   (* uint32 *)
  numChannels : Z         (* uint32 *)
}.
Arguments mkSpec {Rate}.
Arguments sampleRate {Rate}.
Arguments maximumBlockSize {Rate}.
Arguments numChannels {Rate}.

Section Prepare.
Context {H : PluginHost}.
Local Notation "x <- m ;; k" := (bind m (fun x => k)) (at level 61, m at next level, right associativity).
Local Notation "m ;;; k" := (bind m (fun _ => k)) (at level 61, right associativity).
Variable Rate : Type.
Variable setRateAndBufferSizeDetails : Inst -> Rate -> Z -> Inst.
Variable prepareToPlay : Inst -> Rate -> Z -> Inst.
Variable setNonRealtime : Inst -> bool -> Inst.

(** [ExternalPlugin::prepare]. *)
Definition prepare (spec : ProcessSpec Rate) : M unit :=
  h <- get_this ;;
  match pluginInstance h with
  | None => ret tt
  | Some _ =>
      setNumChannels (uint32_to_int (numChannels spec)) ;;;
      h <- get_this ;;
      match pluginInstance h with
      | None => undefined
      | Some i =>
          let bs := uint32_to_int (maximumBlockSize spec) in
          let i := setRateAndBufferSizeDetails i (sampleRate spec) bs in
          let i := prepareToPlay i (sampleRate spec) bs in
          set_instance (Some (setNonRealtime i true))
      end
  end.

End Prepare.

(** A directory tree as [juce::RangedDirectoryIterator] walks it (without
    symbolic-link cycles). *)
#[local] Set Warnings "-register-all".
Inductive FsEntry :=
| FsFile (name : string)
| FsDir (name : string) (children : list FsEntry).

Definition entry_name (e : FsEntry) : string :=
  match e with FsFile n => n | FsDir n _ => n end.

(** [AudioUnitPathFinder::recursiveFileSearch]: [mightContain] is
    [format.fileMightContainThisPluginType] on a full path name, [entries]
    the contents of [directory]. [visitEntry] is the body of the loop for
    one entry: a candidate plugin is added and not entered, any other
    directory is searched when [recursive] is set. *)
Fixpoint visitEntry (mightContain : string -> bool) (recursive : bool)
         (directory : string) (e : FsEntry) : list string :=
  let f := getChildFile directory (entry_name e) in
  if mightContain f then [f]
  else match e with
       | FsDir _ cs =>
           if recursive then
             (fix go (l : list FsEntry) : list string :=
                match l with
                | [] => []
                | c :: l' => (visitEntry mightContain true f c ++ go l')%list
                end) cs
           else []
       | FsFile _ => []
       end.

Definition recursiveFileSearch (mightContain : string -> bool) (recursive : bool)
           (directory : string) (entries : list FsEntry) : list string :=
  flat_map (visitEntry mightContain recursive directory) entries.

(** [AudioUnitPathFinder::searchPathsForPlugins]: each directory of the
    search path with its contents. *)
Definition searchPathsForPlugins (mightContain : string -> bool) (recursive : bool)
           (directories : list (string * list FsEntry)) : list string :=
  flat_map (fun dir => recursiveFileSearch mightContain recursive (fst dir) (snd dir))
           directories.

(** [AudioUnitPathFinder::findInstalledAudioUnitPaths]; [listing] gives
    the contents of a directory (none when it does not exist). *)
Definition auSearchPath : list string :=
  ["/Library/Audio/Plug-Ins/Components"; "~/Library/Audio/Plug-Ins/Components"].

Definition findInstalledAudioUnitPaths {H : PluginHost} (mightContain : string -> bool)
           (listing : string -> list FsEntry) (w : World) : World * list string :=
  (mkWorld (num_active w) true (MessageManagerGetInstance :: trace w),
   searchPathsForPlugins mightContain true
     (map (fun d => (absolute_path d, listing (absolute_path d))) auSearchPath)).

(** Induction on directory trees, with a hypothesis for every child of a
    directory. *)
Fixpoint FsEntry_nested_ind (P : FsEntry -> Prop)
         (Hfile : forall n, P (FsFile n))
         (Hdir : forall n cs, Forall P cs -> P (FsDir n cs)) (e : FsEntry) : P e :=
  match e with
  | FsFile n => Hfile n
  | FsDir n cs =>
      Hdir n cs
        ((fix go (l : list FsEntry) : Forall P l :=
            match l with
            | [] => Forall_nil P
            | c :: l' => Forall_cons c (FsEntry_nested_ind P Hfile Hdir c) (go l')
            end) cs)
  end.

(** The paths a recursive plugin search is meant to report under
    [directory]: an entry the format recognises as a plugin, or something
    found inside a subdirectory that is not itself recognised. *)
Inductive found_at (mightContain : string -> bool) : string -> list FsEntry -> string -> Prop :=
| found_here : forall directory entries e,
    In e entries ->
    mightContain (getChildFile directory (entry_name e)) = true ->
    found_at mightContain directory entries (getChildFile directory (entry_name e))
| found_below : forall directory entries n cs r,
    In (FsDir n cs) entries ->
    mightContain (getChildFile directory n) = false ->
    found_at mightContain (getChildFile directory n) cs r ->
    found_at mightContain directory entries r.

(** ** Facts about the string helpers *)

Lemma prefix_refl : forall t, String.prefix t t = true.
Proof.
  induction t as [|c t IH]; simpl; [reflexivity|].
  destruct (ascii_dec c c); [exact IH | contradiction].
Qed.

Lemma prefix_app_r : forall t s b, String.prefix t s = true -> String.prefix t (s ++ b) = true.
Proof.
  induction t as [|c t IH]; intros s b Hp; [destruct s, b; reflexivity|].
  destruct s as [|c' s]; simpl in *; [discriminate|].
  destruct (ascii_dec c c'); [apply IH; exact Hp | discriminate].
Qed.

Lemma prefix_empty : forall t, String.prefix t EmptyString = true -> t = EmptyString.
Proof. intros [|c t] Hp; [reflexivity | discriminate]. Qed.

Lemma contains_refl : forall t, Str.contains t t = true.
Proof. intros [|c t]; cbn [Str.contains]; rewrite prefix_refl; reflexivity. Qed.

Lemma contains_app_l : forall a b t, Str.contains b t = true -> Str.contains (a ++ b) t = true.
Proof.
  induction a as [|c a IH]; intros b t Hc; [exact Hc|].
  cbn [append Str.contains]; rewrite (IH b t Hc); apply orb_true_r.
Qed.

Lemma contains_app_r : forall a b t, Str.contains a t = true -> Str.contains (a ++ b) t = true.
Proof.
  induction a as [|c a IH]; intros b t Hc.
  - cbn [Str.contains] in Hc; rewrite orb_false_r in Hc.
    apply prefix_empty in Hc; subst t.
    destruct b; reflexivity.
  - cbn [append Str.contains] in *; apply orb_true_iff in Hc as [Hp|Hc].
    + pose proof (prefix_app_r t (String c a) b Hp) as Hq; cbn [append] in Hq.
      rewrite Hq; reflexivity.
    + rewrite (IH b t Hc); apply orb_true_r.
Qed.

Create HintDb contains_db.
#[export] Hint Resolve contains_refl contains_app_l contains_app_r : contains_db.

Ltac solve_contains := solve [auto 30 with contains_db].

(** ** Facts about the pointer vector of [process] *)

Ltac unfold_monad :=
  cbv [bind ret throw get_this put_this get_world put_world emit add_active
       messageManagerGetInstance messageManagerDeleteInstance set_instance
       set_description resetPluginInstance undefined] in *.

Section Properties.
Context {H : PluginHost}.

Lemma findParameter_spec : forall params name,
  match findParameter params name with
  | Some p => exists l1 l2, params = (l1 ++ p :: l2)%list /\ paramGetName p 512 = name /\
                            Forall (fun q => paramGetName q 512 <> name) l1
  | None => Forall (fun q => paramGetName q 512 <> name) params
  end.
Proof.
  induction params as [|p ps IH]; intros name; simpl; [constructor|].
  destruct (String.eqb (paramGetName p 512) name) eqn:E.
  - apply String.eqb_eq in E.
    exists [], ps; repeat split; [exact E | constructor].
  - apply String.eqb_neq in E.
    specialize (IH name); destruct (findParameter ps name) as [q|].
    + destruct IH as (l1 & l2 & -> & Hq & Hl1).
      exists (p :: l1), l2; repeat split; [exact Hq | constructor; assumption].
    + constructor; assumption.
Qed.

(** C10: a plugin object without a live instance (for instance after a
    failed reinstantiation) processes any context, with separate input and
    output blocks or not, by returning normally and leaving the caller's
    buffer as it was. *)
Theorem process_without_instance_is_noop : forall context : ProcessContext,
  process None context = (outputBlock context, Ok tt).
Proof. intros context; reflexivity. Qed.

(** C9: the destructor decrements NUM_ACTIVE_EXTERNAL_PLUGINS by exactly
    one, whether or not the object still holds a native instance (so also
    after a failed reinstantiation left it without one). *)
Theorem destructor_decrements_once : forall (w : World) (h : ExternalPlugin),
  let '((w', h'), r) := destruct_plugin (w, h) in
  num_active w' = num_active w - 1 /\ pluginInstance h' = None /\ r = Ok tt.
Proof.
  intros w [p d [i|]]; unfold destruct_plugin; unfold_monad; cbn;
    destruct (num_active w + -1 =? 0); cbn; repeat split; lia.
Qed.

(** C8: [getParameter name] on a live instance returns the first parameter
    whose name at length 512 equals [name], and the null pointer (Python's
    None, no exception) when there is none. *)
Theorem getParameter_first_match : forall (i : Inst) (name : string),
  exists r, getParameter (Some i) name = Ok r /\
  match r with
  | Some p => exists l1 l2, getParameters i = (l1 ++ p :: l2)%list /\
                            paramGetName p 512 = name /\
                            Forall (fun q => paramGetName q 512 <> name) l1
  | None => Forall (fun q => paramGetName q 512 <> name) (getParameters i)
  end.
Proof.
  intros i name; exists (findParameter (getParameters i) name); split;
    [reflexivity | apply findParameter_spec].
Qed.

End Properties.

Section Lifecycle.
Context {H : PluginHost}.

(** C4: on an object holding a live instance, [reinstantiatePlugin] saves
    the instance's state, deletes the instance, decrements the counter,
    creates a fresh instance from the same stored description, restores
    the state and resets the new instance, in that order; when creation
    fails it throws an ImportError (the PluginLoadError) carrying the
    native error string and leaves the object without an instance. *)
Theorem reinstantiate_steps : forall (w : World) (p : string) (d : Desc) (i : Inst),
  let saved := getStateInformation i in
  let '((w', h'), r) := reinstantiatePlugin (w, mkPlugin p d (Some i)) in
  foundPluginDescription h' = d /\
  match createPluginInstance d ExternalLoadSampleRate ExternalLoadMaximumBlockSize with
  | (Some j, _) =>
      r = Ok tt /\
      pluginInstance h' = Some (instReset (setStateInformation j saved)) /\
      num_active w' = num_active w /\
      trace w' = ([ResetInstance; SetState saved; AdjustActiveCount 1;
                  CreateInstance d ExternalLoadSampleRate ExternalLoadMaximumBlockSize;
                  AdjustActiveCount (-1); DestroyInstance; GetState] ++ trace w)%list
  | (None, loadError) =>
      (exists msg, r = Throw (ImportError msg) /\
                   Str.contains msg loadError = true /\ Str.contains msg p = true) /\
      pluginInstance h' = None /\
      num_active w' = num_active w - 1 /\
      trace w' = ([CreateInstance d ExternalLoadSampleRate ExternalLoadMaximumBlockSize;
                  AdjustActiveCount (-1); DestroyInstance; GetState] ++ trace w)%list
  end.
Proof.
  intros w p d i; unfold reinstantiatePlugin; unfold_monad; cbn -[append juceFileExists Str.trim_separators_at_end].
  destruct (createPluginInstance d ExternalLoadSampleRate ExternalLoadMaximumBlockSize)
    as [[j|] loadError]; cbn -[append juceFileExists Str.trim_separators_at_end].
  - repeat split; lia.
  - repeat split; try lia.
    eexists; split; [reflexivity | split; solve_contains].
Qed.

(** C7: a load whose scan finds descriptions keeps the first one only and
    creates the instance at 44100 Hz with blocks of at most 8192 samples. *)
Theorem construct_keeps_first_description :
  forall (w : World) (p : string) (d : Desc) (rest : list Desc) (j : Inst) (err : string),
  juceFileExists (Str.trim_separators_at_end p) = true ->
  scanAndAddFile (Str.trim_separators_at_end p) = d :: rest ->
  createPluginInstance d 44100 8192 = (Some j, err) ->
  let '((w', h'), r) := construct (w, fresh_plugin p) in
  r = Ok tt /\
  foundPluginDescription h' = d /\
  pluginInstance h' = Some (instReset (setStateInformation j empty_blob)) /\
  trace w' = ([ResetInstance; SetState empty_blob; AdjustActiveCount 1;
              CreateInstance d 44100 8192;
              ScanFile (Str.trim_separators_at_end p); MessageManagerGetInstance] ++ trace w)%list.
Proof.
  intros w p d rest j err Hex Hscan Hcreate.
  unfold construct, reinstantiatePlugin, fresh_plugin; unfold_monad; cbn -[append juceFileExists Str.trim_separators_at_end].
  rewrite Hex; cbn -[append juceFileExists Str.trim_separators_at_end]; rewrite Hscan; cbn -[append juceFileExists Str.trim_separators_at_end].
  unfold ExternalLoadSampleRate, ExternalLoadMaximumBlockSize; rewrite Hcreate; cbn -[append juceFileExists Str.trim_separators_at_end].
  repeat split.
Qed.

(** C5 (amended): when the path, with its trailing separators removed, does
    not exist, the constructor throws an ImportError (the
    PluginNotFoundError) saying the plugin file was not found, having
    created the message manager but scanned nothing. *)
Theorem construct_missing_file : forall (w : World) (p : string),
  juceFileExists (Str.trim_separators_at_end p) = false ->
  let '((w', h'), r) := construct (w, fresh_plugin p) in
  r = Throw (ImportError ("Unable to load plugin " ++ p ++ ": plugin file not found.")) /\
  trace w' = ([MessageManagerGetInstance] ++ trace w)%list /\
  num_active w' = num_active w /\
  pluginInstance h' = None.
Proof.
  intros w p Hex; unfold construct, fresh_plugin; unfold_monad; cbn -[append juceFileExists Str.trim_separators_at_end].
  rewrite Hex; cbn -[append juceFileExists Str.trim_separators_at_end]; repeat split.
Qed.

(** C6 (amended): when the existence check passes and the scan finds no
    description, the constructor throws an ImportError (the
    PluginLoadError); in the Linux build its message suggests running
    [ldd] on Contents/<machine>-linux/<bundle name>.so inside the bundle. *)
Theorem construct_no_description : forall (w : World) (p : string),
  juceFileExists (Str.trim_separators_at_end p) = true ->
  scanAndAddFile (Str.trim_separators_at_end p) = [] ->
  let bundle := absolute_path (Str.trim_separators_at_end p) in
  let machine := match uname_machine with Some m => m | None => EmptyString end in
  let '((w', h'), r) := construct (w, fresh_plugin p) in
  (exists msg,
     r = Throw (ImportError msg) /\
     Str.contains msg "unsupported plugin format or load failure" = true /\
     (is_linux = true ->
      Str.contains msg "ldd" = true /\
      Str.contains msg
        (getChildFile (getChildFile (getChildFile bundle "Contents") (machine ++ "-linux"))
                      (getFileNameWithoutExtension bundle ++ ".so")) = true)) /\
  trace w' = ([ScanFile (Str.trim_separators_at_end p); MessageManagerGetInstance] ++ trace w)%list /\
  num_active w' = num_active w /\
  pluginInstance h' = None.
Proof.
  intros w p Hex Hscan; unfold construct, fresh_plugin; unfold_monad; cbn -[append juceFileExists Str.trim_separators_at_end].
  rewrite Hex; cbn -[append juceFileExists Str.trim_separators_at_end]; rewrite Hscan; cbn -[append juceFileExists Str.trim_separators_at_end].
  split; [|repeat split].
  unfold noDescriptionError; destruct is_linux eqn:Hl.
  - eexists; split; [reflexivity|].
    split; [solve_contains|].
    intros _; split.
    + apply contains_app_l, contains_app_l, contains_app_l, contains_app_r.
      reflexivity.
    + unfold sharedObjectPath; solve_contains.
  - eexists; split; [reflexivity|].
    split; [solve_contains | discriminate].
Qed.

End Lifecycle.

Section Negotiation.
Context {H : PluginHost}.

(** C3 (amended): on an object holding a live instance whose main output
    bus exists, [setNumChannels n] either returns with both main buses at
    exactly [n] channels, or throws std::invalid_argument (the
    UnsupportedConfigurationError) naming the plugin; its message also
    names [n] and the buses' actual channel counts when the main input bus
    exists, and says the plugin does not accept audio input when it does
    not.  The global state is left as it was. *)
Theorem setNumChannels_result :
  forall (w : World) (p : string) (d : Desc) (i : Inst) (n : Z),
  getBus (disableNonMainBuses i) false 0 <> None ->
  let '((w', h'), r) := setNumChannels n (w, mkPlugin p d (Some i)) in
  w' = w /\
  exists i', pluginInstance h' = Some i' /\
  ((r = Ok tt /\
    Z.of_nat (channelCountOfBus i' true 0) = n /\
    Z.of_nat (channelCountOfBus i' false 0) = n) \/
   (exists msg, r = Throw (InvalidArgument msg) /\
    Str.contains msg (getName i') = true /\
    ((getBus (disableNonMainBuses i) true 0 <> None /\
      (Z.of_nat (channelCountOfBus i' true 0) <> n \/
       Z.of_nat (channelCountOfBus i' false 0) <> n) /\
      Str.contains msg (Str.of_Z n) = true /\
      Str.contains msg (Str.of_nat (channelCountOfBus i' true 0)) = true /\
      Str.contains msg (Str.of_nat (channelCountOfBus i' false 0)) = true) \/
     (getBus (disableNonMainBuses i) true 0 = None /\
      Str.contains msg "does not accept audio input" = true)))).
Proof.
  intros w p d i n Hout.
  unfold setNumChannels; unfold_monad; cbn -[append].
  destruct (getBus (disableNonMainBuses i) true 0) as [bin|] eqn:Ein.
  - destruct (getBus (disableNonMainBuses i) false 0) as [bout|] eqn:Eout;
      [|contradiction].
    cbn -[append].
    set (i5 := busSetNumberOfChannels _ false 0 n).
    destruct (negb (Z.of_nat (channelCountOfBus i5 true 0) =? n) ||
              negb (Z.of_nat (channelCountOfBus i5 false 0) =? n)) eqn:Ec;
      cbn -[append]; (split; [destruct w; reflexivity|]); exists i5; split; try reflexivity.
    + right; eexists; split; [reflexivity|].
      split; [solve_contains|].
      left; split; [discriminate|].
      split; [|repeat split; solve_contains].
      apply orb_true_iff in Ec as [Ec|Ec]; apply negb_true_iff, Z.eqb_neq in Ec; auto.
    + left; split; [reflexivity|].
      apply orb_false_iff in Ec as [E1 E2].
      apply negb_false_iff, Z.eqb_eq in E1, E2; split; assumption.
  - cbn -[append]; split; [destruct w; reflexivity|].
    eexists; split; [reflexivity|].
    right; eexists; split; [reflexivity|].
    split; [solve_contains|].
    right; split; [reflexivity|].
    apply contains_app_l, contains_app_l, contains_app_r; reflexivity.
Qed.

End Negotiation.

Section Counter.
Context {H : PluginHost}.

Lemma construct_world : forall (w : World) (p : string),
  let '((w', _), r) := construct (w, fresh_plugin p) in
  message_manager w' = true /\
  match r with
  | Ok _ => num_active w' = num_active w + 1
  | _ => num_active w' = num_active w
  end.
Proof.
  intros w p; unfold construct, reinstantiatePlugin, fresh_plugin; unfold_monad.
  cbn -[append juceFileExists Str.trim_separators_at_end].
  destruct (juceFileExists (Str.trim_separators_at_end p)); cbn -[append];
    [|split; reflexivity].
  destruct (scanAndAddFile (Str.trim_separators_at_end p)) as [|d ds]; cbn -[append];
    [split; reflexivity|].
  destruct (createPluginInstance d ExternalLoadSampleRate ExternalLoadMaximumBlockSize)
    as [[j|] err]; cbn -[append]; split; reflexivity.
Qed.

Lemma destruct_world : forall (w : World) (h : ExternalPlugin),
  let w' := fst (fst (destruct_plugin (w, h))) in
  num_active w' = num_active w - 1 /\
  message_manager w' = (if num_active w - 1 =? 0 then false else message_manager w).
Proof.
  intros w [p d [i|]]; unfold destruct_plugin; unfold_monad; cbn;
    replace (num_active w + -1) with (num_active w - 1) by lia;
    destruct (num_active w - 1 =? 0); cbn; split; reflexivity.
Qed.

Lemma remove_nth_length {A} : forall (l : list A) k x,
  nth_error l k = Some x -> length (remove_nth k l) = pred (length l).
Proof.
  induction l as [|y l IH]; intros [|k] x Hk; simpl in *; try discriminate; [reflexivity|].
  rewrite (IH k x Hk); destruct l; [destruct k; discriminate | reflexivity].
Qed.

(** What the counter and the message manager satisfy between calls. *)
Definition counter_invariant (s : Sys) : Prop :=
  num_active (sys_world s) = Z.of_nat (length (live s)) /\
  (0 < num_active (sys_world s) -> message_manager (sys_world s) = true).

Lemma step_invariant : forall s op, counter_invariant s -> counter_invariant (step s op).
Proof.
  intros [w hs] [p|k] [Hc Hm]; unfold counter_invariant; cbn [sys_world live] in *;
    unfold step; cbn [sys_world live].
  - pose proof (construct_world w p) as Hw.
    destruct (construct (w, fresh_plugin p)) as [[w' h'] [a|e|]];
      destruct Hw as [Hmm Hn]; split; cbn [sys_world live]; try (intros; exact Hmm);
      rewrite Hn, ?length_app, Hc; cbn [length]; lia.
  - destruct (nth_error hs k) as [h|] eqn:Ek; [|split; assumption].
    destruct (destruct_world w h) as [Hn Hmm]; cbn [sys_world live].
    rewrite (remove_nth_length _ _ _ Ek).
    assert (Hlen : (0 < length hs)%nat)
      by (destruct hs; [destruct k; discriminate | cbn; lia]).
    split.
    + rewrite Hn, Hc; lia.
    + intros Hpos; rewrite Hmm.
      destruct (num_active w - 1 =? 0) eqn:Ez; [apply Z.eqb_eq in Ez; lia|].
      apply Hm; lia.
Qed.

Lemma run_invariant : forall ops s, counter_invariant s -> counter_invariant (run s ops).
Proof.
  induction ops as [|op ops IH]; intros s Hs; [exact Hs|].
  apply IH, step_invariant, Hs.
Qed.

(** C1 (amended): along any sequence of constructions and destructions,
    starting from no plugin, NUM_ACTIVE_EXTERNAL_PLUGINS equals the
    number of live plugin objects (so it is never negative), the message
    manager exists whenever the counter is positive, and a destruction
    that brings the counter back to zero deletes the message manager. *)
Theorem counter_and_message_manager : forall ops : list Op,
  let s := run initial_sys ops in
  num_active (sys_world s) = Z.of_nat (length (live s)) /\
  0 <= num_active (sys_world s) /\
  (0 < num_active (sys_world s) -> message_manager (sys_world s) = true) /\
  (forall k, num_active (sys_world (step s (Destroy k))) = 0 ->
             (k < length (live s))%nat ->
             message_manager (sys_world (step s (Destroy k))) = false).
Proof.
  intros ops s.
  assert (Hi : counter_invariant s) by (apply run_invariant; split; [reflexivity | discriminate]).
  destruct Hi as [Hc Hm].
  split; [exact Hc|]; split; [lia|]; split; [exact Hm|].
  intros k Hz Hk; unfold step in *.
  destruct (nth_error (live s) k) as [h|] eqn:Ek;
    [|apply nth_error_None in Ek; lia].
  cbn [sys_world] in *.
  destruct (destruct_world (sys_world s) h) as [Hn Hmm].
  rewrite Hmm; rewrite Hn in Hz; rewrite Hz; reflexivity.
Qed.

End Counter.

(** ** The remaining members *)

Section MemberFacts.
Context {H : PluginHost}.

Lemma setNumChannels_ok_shape : forall (w w' : World) (p : string) (d : Desc) (i : Inst)
                                       (n : Z) (h' : ExternalPlugin),
  setNumChannels n (w, mkPlugin p d (Some i)) = ((w', h'), Ok tt) ->
  w' = w /\ exists j, h' = mkPlugin p d (Some j) /\
    Z.of_nat (channelCountOfBus j true 0) = n /\
    Z.of_nat (channelCountOfBus j false 0) = n.
Proof.
  intros w w' p d i n h' E.
  unfold setNumChannels in E; unfold_monad; cbn -[append] in E.
  destruct (getBus (disableNonMainBuses i) true 0) as [bin|]; cbn -[append] in E;
    [|discriminate].
  destruct (getBus (disableNonMainBuses i) false 0) as [bout|]; cbn -[append] in E;
    [|discriminate].
  set (i5 := busSetNumberOfChannels _ false 0 n) in E.
  destruct (negb (Z.of_nat (channelCountOfBus i5 true 0) =? n) ||
            negb (Z.of_nat (channelCountOfBus i5 false 0) =? n)) eqn:Ec;
    cbn -[append] in E; [discriminate|].
  injection E as <- <-; split; [destruct w; reflexivity|].
  apply orb_false_iff in Ec as [E1 E2].
  apply negb_false_iff, Z.eqb_eq in E1, E2.
  exists i5; split; [reflexivity | split; assumption].
Qed.

(** [ExternalPlugin::getNumChannels] after a [setNumChannels n] that
    returned normally on an object with an instance reports [n], and the
    global state is untouched. *)
Theorem getNumChannels_after_setNumChannels :
  forall (w w' : World) (p : string) (d : Desc) (i : Inst) (n : Z) (h' : ExternalPlugin),
  setNumChannels n (w, mkPlugin p d (Some i)) = ((w', h'), Ok tt) ->
  Z.of_nat (getNumChannels h') = n /\ w' = w.
Proof.
  intros w w' p d i n h' E.
  destruct (setNumChannels_ok_shape w w' p d i n h' E) as (Hw & j & -> & Hin & _).
  split; [exact Hin | exact Hw].
Qed.

End MemberFacts.

Section PrepareFacts.
Context {H : PluginHost}.
Variable Rate : Type.
Variable setRateAndBufferSizeDetails : Inst -> Rate -> Z -> Inst.
Variable prepareToPlay : Inst -> Rate -> Z -> Inst.
Variable setNonRealtime : Inst -> bool -> Inst.

Lemma prepare_unfold : forall (spec : ProcessSpec Rate) (w : World) (p : string) (d : Desc) (i : Inst),
  prepare Rate setRateAndBufferSizeDetails prepareToPlay setNonRealtime spec
          (w, mkPlugin p d (Some i)) =
  match setNumChannels (uint32_to_int (numChannels spec)) (w, mkPlugin p d (Some i)) with
  | (s', Ok _) =>
      match pluginInstance (snd s') with
      | None => (s', Undefined)
      | Some j =>
          let bs := uint32_to_int (maximumBlockSize spec) in
          ((fst s', mkPlugin (pathToPluginFile (snd s')) (foundPluginDescription (snd s'))
                      (Some (setNonRealtime
                               (prepareToPlay (setRateAndBufferSizeDetails j (sampleRate spec) bs)
                                              (sampleRate spec) bs) true))), Ok tt)
      end
  | (s', Throw e) => (s', Throw e)
  | (s', Undefined) => (s', Undefined)
  end.
Proof.
  intros spec w p d i; unfold prepare; unfold_monad; cbn -[setNumChannels].
  destruct (setNumChannels (uint32_to_int (numChannels spec)) (w, mkPlugin p d (Some i)))
    as [[w1 h1] [[]|e|]]; cbn -[setNumChannels]; [|reflexivity|reflexivity].
  destruct (pluginInstance h1); reflexivity.
Qed.

(** When the sample-rate, prepare and non-realtime calls of the plugin
    leave its main input bus alone, a [prepare] with a channel count below
    2^31 that returns normally leaves [getNumChannels] equal to the
    requested count. *)
Theorem prepare_sets_channel_count :
  forall (spec : ProcessSpec Rate) (w w' : World) (p : string) (d : Desc) (i : Inst)
         (h' : ExternalPlugin),
  (forall j r b, getBus (setRateAndBufferSizeDetails j r b) true 0 = getBus j true 0) ->
  (forall j r b, getBus (prepareToPlay j r b) true 0 = getBus j true 0) ->
  (forall j b, getBus (setNonRealtime j b) true 0 = getBus j true 0) ->
  0 <= numChannels spec < 2 ^ 31 ->
  prepare Rate setRateAndBufferSizeDetails prepareToPlay setNonRealtime spec
          (w, mkPlugin p d (Some i)) = ((w', h'), Ok tt) ->
  Z.of_nat (getNumChannels h') = numChannels spec.
Proof.
  intros spec w w' p d i h' H1 H2 H3 Hn E.
  rewrite prepare_unfold in E.
  assert (Hc : uint32_to_int (numChannels spec) = numChannels spec)
    by (unfold uint32_to_int; destruct (Z.ltb_spec (numChannels spec) (2 ^ 31)); lia).
  rewrite Hc in E.
  destruct (setNumChannels (numChannels spec) (w, mkPlugin p d (Some i)))
    as [[w1 h1] [[]|e|]] eqn:Es; [|discriminate|discriminate].
  destruct (setNumChannels_ok_shape _ _ _ _ _ _ _ Es) as (_ & j & -> & Hin & _).
  cbn in E; injection E as <- <-.
  unfold getNumChannels; cbn; rewrite H3, H2, H1.
  exact Hin.
Qed.

(** [prepare] passes the [uint32] channel count of the process spec to
    [setNumChannels (int)]: a count of 2^31 or more wraps to a negative
    number, which no bus can have, so such a [prepare] never returns
    normally. *)
Theorem prepare_rejects_wrapped_channel_count :
  forall (spec : ProcessSpec Rate) (w : World) (p : string) (d : Desc) (i : Inst),
  2 ^ 31 <= numChannels spec < 2 ^ 32 ->
  uint32_to_int (numChannels spec) = numChannels spec - 2 ^ 32 /\
  snd (prepare Rate setRateAndBufferSizeDetails prepareToPlay setNonRealtime spec
               (w, mkPlugin p d (Some i))) <> Ok tt.
Proof.
  intros spec w p d i Hn.
  assert (Hc : uint32_to_int (numChannels spec) = numChannels spec - 2 ^ 32)
    by (unfold uint32_to_int; destruct (Z.ltb_spec (numChannels spec) (2 ^ 31)); lia).
  split; [exact Hc|].
  rewrite prepare_unfold, Hc.
  destruct (setNumChannels (numChannels spec - 2 ^ 32) (w, mkPlugin p d (Some i)))
    as [[w1 h1] [[]|e|]] eqn:Es; cbn; try discriminate.
  destruct (setNumChannels_ok_shape _ _ _ _ _ _ _ Es) as (_ & j & _ & Hin & _).
  lia.
Qed.

End PrepareFacts.

Section ResetFacts.
Context {H : PluginHost}.

(** [ExternalPlugin::reset] on an object with an instance soft-resets the
    instance, then reinstantiates it from the stored description with the
    state read after the soft reset, the counter coming back to its value;
    when the new instance cannot be created the exception leaves a
    [noexcept] function and the process terminates, so [reset] never
    returns with the object left without an instance. *)
Theorem reset_reinstantiates_or_terminates : forall (w : World) (p : string) (d : Desc) (i : Inst),
  let '((w', h'), r) := reset_plugin (w, mkPlugin p d (Some i)) in
  foundPluginDescription h' = d /\
  match createPluginInstance d ExternalLoadSampleRate ExternalLoadMaximumBlockSize with
  | (Some j, _) =>
      r = ResetReturned /\
      pluginInstance h' =
        Some (instReset (setStateInformation j (getStateInformation (instReset i)))) /\
      num_active w' = num_active w
  | (None, loadError) =>
      exists msg, r = Terminated (ImportError msg) /\ Str.contains msg loadError = true
  end.
Proof.
  intros w p d i; unfold reset_plugin, reset_body, reinstantiatePlugin; unfold_monad.
  cbn -[append].
  destruct (createPluginInstance d ExternalLoadSampleRate ExternalLoadMaximumBlockSize)
    as [[j|] loadError]; cbn -[append].
  - repeat split; lia.
  - split; [reflexivity|].
    eexists; split; [reflexivity | solve_contains].
Qed.

(** When the plugin gives back, after a soft reset, the state it was
    given, a successful [reinstantiatePlugin] yields an instance whose
    state is the old instance's, with the same description and the
    counter unchanged. *)
Theorem reinstantiate_preserves_state :
  forall (w : World) (p : string) (d : Desc) (i j : Inst) (err : string),
  (forall k b, getStateInformation (instReset (setStateInformation k b)) = b) ->
  createPluginInstance d ExternalLoadSampleRate ExternalLoadMaximumBlockSize = (Some j, err) ->
  exists w' i',
    reinstantiatePlugin (w, mkPlugin p d (Some i)) = ((w', mkPlugin p d (Some i')), Ok tt) /\
    getStateInformation i' = getStateInformation i /\
    num_active w' = num_active w.
Proof.
  intros w p d i j err Hlaw Hc.
  unfold reinstantiatePlugin; unfold_monad; cbn -[append].
  rewrite Hc; cbn -[append].
  eexists; eexists; split; [reflexivity|].
  split; [apply Hlaw | cbn; lia].
Qed.

End ResetFacts.

(** ** More of [process] *)

Lemma vector_set_app {A} : forall (pre rest : list A) y x,
  vector_set (pre ++ y :: rest)%list (length pre) x = Some (pre ++ x :: rest)%list.
Proof.
  induction pre as [|a pre IH]; intros rest y x; [reflexivity|].
  cbn; rewrite IH; reflexivity.
Qed.

Lemma set_each_fill : forall f y m s pre rest,
  length pre = s ->
  set_each (seq s m) f (pre ++ repeat y m ++ rest)%list =
    Some (pre ++ map f (seq s m) ++ rest)%list.
Proof.
  intros f y; induction m as [|m IH]; intros s pre rest Hl; [reflexivity|].
  cbn [seq repeat set_each app map].
  rewrite <- Hl at 1; rewrite vector_set_app.
  replace (pre ++ f s :: repeat y m ++ rest)%list with ((pre ++ [f s]) ++ repeat y m ++ rest)%list
    by (rewrite <- app_assoc; reflexivity).
  rewrite IH by (rewrite length_app; cbn; lia).
  rewrite <- app_assoc; reflexivity.
Qed.

Lemma vector_set_none {A} : forall (v : list A) k x,
  (length v <= k)%nat -> vector_set v k x = None.
Proof.
  induction v as [|a v IH]; intros k x Hk; [reflexivity|].
  destruct k as [|k]; cbn in Hk; [lia|].
  cbn; rewrite IH by lia; reflexivity.
Qed.

Lemma vector_set_length {A} : forall (v v' : list A) k x,
  vector_set v k x = Some v' -> length v' = length v.
Proof.
  induction v as [|a v IH]; intros v' k x E; [discriminate|].
  destruct k as [|k]; cbn in E.
  - injection E as <-; reflexivity.
  - destruct (vector_set v k x) as [u|] eqn:Eu; cbn in E; [|discriminate].
    injection E as <-; cbn; rewrite (IH u k x Eu); reflexivity.
Qed.

Lemma set_each_none : forall ks f v,
  (exists k, In k ks /\ (length v <= k)%nat) -> set_each ks f v = None.
Proof.
  induction ks as [|k ks IH]; intros f v (k' & Hin & Hk'); [destruct Hin|].
  cbn. destruct (vector_set v k (f k)) as [v'|] eqn:E; [|reflexivity].
  apply IH. destruct Hin as [<-|Hin].
  - rewrite vector_set_none in E by exact Hk'; discriminate.
  - exists k'; split; [exact Hin|]; rewrite (vector_set_length _ _ _ _ E); exact Hk'.
Qed.

Section ProcessFacts.
Context {H : PluginHost}.

Lemma resolve_callers : forall block ks rest,
  resolve block (map CallerChannel ks ++ rest)%list =
  option_map (app (map (fun k => nth k block []) ks)) (resolve block rest).
Proof.
  intros block; induction ks as [|k ks IH]; intros rest.
  - cbn; destruct (resolve block rest); reflexivity.
  - cbn; rewrite IH; destruct (resolve block rest); reflexivity.
Qed.

Lemma map_nth_seq_self {A} : forall (l : list A) d,
  map (fun k => nth k l d) (seq 0 (length l)) = l.
Proof.
  intros l d; induction l as [|a l IH]; [reflexivity|].
  cbn [length seq map nth]; f_equal.
  rewrite <- seq_shift, map_map; exact IH.
Qed.

Lemma process_pointers : forall (pc n : nat) (c : ChannelPtr),
  (n <= pc)%nat ->
  set_each (seq 0 n) CallerChannel (repeat NullPtr pc) =
    Some (map CallerChannel (seq 0 n) ++ repeat NullPtr (pc - n))%list /\
  set_each (seq n (pc - n)) (fun _ => c)
           (map CallerChannel (seq 0 n) ++ repeat NullPtr (pc - n))%list =
    Some (map CallerChannel (seq 0 n) ++ repeat c (pc - n))%list.
Proof.
  intros pc n c Hle.
  replace (repeat NullPtr pc) with ([] ++ repeat NullPtr n ++ repeat NullPtr (pc - n))%list
    by (cbn; rewrite <- repeat_app; f_equal; lia).
  split.
  - rewrite (set_each_fill CallerChannel NullPtr n 0 [] _ eq_refl); reflexivity.
  - replace (map CallerChannel (seq 0 n) ++ repeat NullPtr (pc - n))%list
      with (map CallerChannel (seq 0 n) ++ repeat NullPtr (pc - n) ++ [])%list
      by (rewrite app_nil_r; reflexivity).
    rewrite set_each_fill by (rewrite length_map, length_seq; reflexivity).
    rewrite app_nil_r, map_const, length_seq; reflexivity.
Qed.

(** An in-place block whose channel count equals both the plugin's
    buffer size (the channels of its enabled input buses) and its main
    input bus, and does not exceed its main output bus, is handed to the
    plugin as it is; each of the caller's channels is then overwritten by
    the plugin's channel of the same index. *)
Theorem process_in_place_success : forall (i : Inst) (context : ProcessContext),
  usesSeparateInputAndOutputBlocks context = false ->
  pluginBufferChannelCount i = length (outputBlock context) ->
  getMainBusNumInputChannels i = length (outputBlock context) ->
  (length (outputBlock context) <= getMainBusNumOutputChannels i)%nat ->
  let block := outputBlock context in
  process (Some i) context =
    (map (fun k => nth k (processBlock i block) (nth k block []))
         (seq 0 (length block)), Ok tt).
Proof.
  intros i context Hsep Hpc Hin Hout; cbv zeta.
  set (block := outputBlock context) in *.
  destruct (process_pointers (pluginBufferChannelCount i) (length block)
              (scratchPointer (numSamples block)) ltac:(lia)) as [E1 E2].
  unfold process; fold block; rewrite Hsep, E1, E2, Hin, Nat.eqb_refl.
  destruct (Nat.ltb_spec (getMainBusNumOutputChannels i) (length block)); [lia|].
  cbn [negb].
  rewrite Hpc, Nat.sub_diag; cbn [repeat].
  rewrite resolve_callers; cbn [resolve option_map].
  rewrite app_nil_r, map_nth_seq_self; reflexivity.
Qed.

(** When the plugin's enabled input buses have more channels than the
    caller's in-place block, the block holds at least one sample and the
    channel checks pass, the plugin is given the storage of scratch
    channels that were already freed: undefined behaviour. *)
Theorem process_uses_freed_scratch : forall (i : Inst) (context : ProcessContext),
  usesSeparateInputAndOutputBlocks context = false ->
  (0 < numSamples (outputBlock context))%nat ->
  (length (outputBlock context) < pluginBufferChannelCount i)%nat ->
  getMainBusNumInputChannels i = length (outputBlock context) ->
  (length (outputBlock context) <= getMainBusNumOutputChannels i)%nat ->
  process (Some i) context = (outputBlock context, Undefined).
Proof.
  intros i context Hsep Hns Hlt Hin Hout.
  set (block := outputBlock context) in *.
  assert (Hscratch : scratchPointer (numSamples block) = FreedScratch)
    by (unfold scratchPointer; destruct (Nat.eqb_spec (numSamples block) 0); [lia | reflexivity]).
  destruct (process_pointers (pluginBufferChannelCount i) (length block)
              (scratchPointer (numSamples block)) ltac:(lia)) as [E1 E2].
  unfold process; fold block; rewrite Hsep, E1, E2, Hin, Nat.eqb_refl.
  destruct (Nat.ltb_spec (getMainBusNumOutputChannels i) (length block)); [lia|].
  cbn [negb].
  rewrite Hscratch.
  destruct (pluginBufferChannelCount i - length block)%nat as [|m] eqn:Em; [lia|].
  rewrite resolve_callers; reflexivity.
Qed.

(** When the caller's in-place block has more channels than the plugin's
    enabled input buses, [process] writes past the end of its pointer
    vector before any check: undefined behaviour. *)
Theorem process_writes_out_of_range : forall (i : Inst) (context : ProcessContext),
  usesSeparateInputAndOutputBlocks context = false ->
  (pluginBufferChannelCount i < length (outputBlock context))%nat ->
  process (Some i) context = (outputBlock context, Undefined).
Proof.
  intros i context Hsep Hlt.
  unfold process; rewrite Hsep.
  rewrite set_each_none; [reflexivity|].
  exists (pluginBufferChannelCount i); split.
  - apply in_seq; lia.
  - rewrite repeat_length; lia.
Qed.

End ProcessFacts.

(** ** Parameters by name *)

Section ParameterFacts.
Context {H : PluginHost}.

Lemma findParameter_own_name : forall (ps : list Param) (p : Param),
  In p ps ->
  exists q, findParameter ps (parameterName p) = Some q /\
            parameterName q = parameterName p /\
            (NoDup (map parameterName ps) -> q = p).
Proof.
  unfold parameterName.
  induction ps as [|a ps IH]; intros p Hin; [destruct Hin|].
  cbn [findParameter].
  destruct (String.eqb_spec (paramGetName a 512) (paramGetName p 512)) as [E|E].
  - exists a; split; [reflexivity|]; split; [exact E|].
    intros Hnd; destruct Hin as [->|Hin]; [reflexivity|].
    cbn in Hnd; inversion Hnd as [|? ? Hnot _]; subst.
    exfalso; apply Hnot; rewrite E; exact (in_map (fun q => paramGetName q 512) ps p Hin).
  - destruct Hin as [->|Hin]; [contradiction|].
    destruct (IH p Hin) as (q & Eq & Hq & Hu).
    exists q; split; [exact Eq|]; split; [exact Hq|].
    intros Hnd; cbn in Hnd; inversion Hnd; subst; apply Hu; assumption.
Qed.

(** Looking a parameter of [_parameters] up with [_get_parameter] by its
    own [name] property (its name at length 512) finds a parameter of that
    name, and finds the parameter itself when the names of the plugin's
    parameters are distinct. *)
Theorem getParameter_by_own_name : forall (i : Inst) (ps : list Param) (p : Param),
  pluginParameters (Some i) = Ok ps ->
  In p ps ->
  exists q, getParameter (Some i) (parameterName p) = Ok (Some q) /\
            parameterName q = parameterName p /\
            (NoDup (map parameterName ps) -> q = p).
Proof.
  intros i ps p Hps Hin; cbn in Hps; injection Hps as <-; rewrite map_id in *.
  destruct (findParameter_own_name (getParameters i) p Hin) as (q & Eq & Hq & Hu).
  exists q; split; [cbn; rewrite Eq; reflexivity | split; assumption].
Qed.

End ParameterFacts.

(** ** The Audio Unit plugin locator *)

Lemma visitEntry_eq : forall mightContain recursive directory e,
  visitEntry mightContain recursive directory e =
  let f := getChildFile directory (entry_name e) in
  if mightContain f then [f]
  else match e with
       | FsDir _ cs => if recursive then recursiveFileSearch mightContain true f cs else []
       | FsFile _ => []
       end.
Proof.
  intros mc rec d [n|n cs]; cbn; [reflexivity|].
  destruct (mc (getChildFile d n)); [reflexivity|].
  destruct rec; [|reflexivity].
  unfold recursiveFileSearch; induction cs as [|c cs IH]; [reflexivity|].
  cbn [flat_map]; rewrite <- IH; reflexivity.
Qed.

Lemma recursive_search_iff : forall mightContain directory entries r,
  In r (recursiveFileSearch mightContain true directory entries) <->
  found_at mightContain directory entries r.
Proof.
  intros mc; split.
  - unfold recursiveFileSearch; intros Hr; apply in_flat_map in Hr as (e & He & Hr).
    revert directory entries r He Hr.
    induction e as [n|n cs IH] using FsEntry_nested_ind;
      intros d es r He Hr; rewrite visitEntry_eq in Hr; cbv zeta in Hr; cbn [entry_name] in *.
    + destruct (mc (getChildFile d n)) eqn:Em; [|destruct Hr].
      destruct Hr as [<-|[]]; exact (found_here mc d es (FsFile n) He Em).
    + destruct (mc (getChildFile d n)) eqn:Em.
      * destruct Hr as [<-|[]]; exact (found_here mc d es (FsDir n cs) He Em).
      * apply in_flat_map in Hr as (c & Hc & Hr).
        apply (found_below mc d es n cs r He Em).
        rewrite Forall_forall in IH; exact (IH c Hc _ cs r Hc Hr).
  - intros Hf; induction Hf as [d es e He Em | d es n cs r He Em _ IH];
      unfold recursiveFileSearch; apply in_flat_map.
    + exists e; split; [exact He|]; rewrite visitEntry_eq; cbv zeta; rewrite Em; left; reflexivity.
    + exists (FsDir n cs); split; [exact He|]; rewrite visitEntry_eq; cbv zeta; cbn [entry_name].
      rewrite Em; exact IH.
Qed.

(** A recursive search reports exactly the entries the format recognises
    as plugins that are reached through directories it does not
    recognise: it never looks inside a recognised plugin bundle. *)
Theorem recursiveFileSearch_recursive : forall mightContain directory entries r,
  In r (recursiveFileSearch mightContain true directory entries) <->
  found_at mightContain directory entries r.
Proof. exact recursive_search_iff. Qed.

(** A non-recursive search reports exactly the recognised entries of the
    directory itself. *)
Theorem recursiveFileSearch_flat : forall mightContain directory entries r,
  In r (recursiveFileSearch mightContain false directory entries) <->
  exists e, In e entries /\ r = getChildFile directory (entry_name e) /\ mightContain r = true.
Proof.
  intros mc d es r; unfold recursiveFileSearch; rewrite in_flat_map; split.
  - intros (e & He & Hr); rewrite visitEntry_eq in Hr; cbv zeta in Hr.
    destruct (mc (getChildFile d (entry_name e))) eqn:Em.
    + destruct Hr as [<-|[]]; exists e; repeat split; assumption.
    + destruct e; destruct Hr.
  - intros (e & He & -> & Em); exists e; split; [exact He|].
    rewrite visitEntry_eq; cbv zeta; rewrite Em; left; reflexivity.
Qed.

(** [findInstalledAudioUnitPaths] creates the message manager, leaves the
    plugin counter alone and reports exactly the plugins found by a
    recursive search of the system and the user Components folders. *)
Theorem findInstalledAudioUnitPaths_spec {H : PluginHost} :
  forall mightContain listing (w : World),
  let '(w', paths) := findInstalledAudioUnitPaths mightContain listing w in
  message_manager w' = true /\ num_active w' = num_active w /\
  forall r, In r paths <->
    exists dir, In dir auSearchPath /\
      found_at mightContain (absolute_path dir) (listing (absolute_path dir)) r.
Proof.
  intros mc listing w; cbn [findInstalledAudioUnitPaths message_manager num_active].
  split; [reflexivity|]; split; [reflexivity|].
  intros r; unfold searchPathsForPlugins; rewrite in_flat_map; split.
  - intros (x & Hx & Hr); apply in_map_iff in Hx as (dir & <- & Hd).
    exists dir; split; [exact Hd|]; apply recursive_search_iff; exact Hr.
  - intros (dir & Hd & Hf); exists (absolute_path dir, listing (absolute_path dir)); split.
    + exact (in_map (fun d => (absolute_path d, listing (absolute_path d))) auSearchPath dir Hd).
    + apply recursive_search_iff; exact Hf.
Qed.

(** ** The path given to the constructor *)

Lemma list_ascii_of_string_app : forall s t,
  list_ascii_of_string (s ++ t) = (list_ascii_of_string s ++ list_ascii_of_string t)%list.
Proof. induction s as [|c s IH]; intros t; cbn; [reflexivity | rewrite IH; reflexivity]. Qed.

Lemma trim_separator_app : forall p,
  Str.trim_separators_at_end (p ++ "/") = Str.trim_separators_at_end p.
Proof.
  intros p; unfold Str.trim_separators_at_end.
  rewrite list_ascii_of_string_app; cbn [list_ascii_of_string].
  rewrite rev_app_distr; reflexivity.
Qed.

Section PathFacts.
Context {H : PluginHost}.

Lemma construct_depends_on_stripped_path : forall (w : World) (p q : string),
  Str.trim_separators_at_end p = Str.trim_separators_at_end q ->
  let '((w1, h1), r1) := construct (w, fresh_plugin p) in
  let '((w2, h2), r2) := construct (w, fresh_plugin q) in
  w1 = w2 /\ foundPluginDescription h1 = foundPluginDescription h2 /\
  pluginInstance h1 = pluginInstance h2 /\ (r1 = Ok tt <-> r2 = Ok tt).
Proof.
  intros w p q Ht.
  unfold construct, reinstantiatePlugin, fresh_plugin; unfold_monad.
  cbn -[append juceFileExists Str.trim_separators_at_end].
  rewrite Ht.
  destruct (juceFileExists (Str.trim_separators_at_end q));
    cbn -[append juceFileExists Str.trim_separators_at_end];
    [|repeat split; discriminate].
  destruct (scanAndAddFile (Str.trim_separators_at_end q)) as [|d ds];
    cbn -[append juceFileExists Str.trim_separators_at_end];
    [repeat split; discriminate|].
  destruct (createPluginInstance d ExternalLoadSampleRate ExternalLoadMaximumBlockSize)
    as [[j|] err]; cbn -[append juceFileExists Str.trim_separators_at_end];
    repeat split; discriminate.
Qed.

(** The constructor reaches the same global state, description and
    instance, and succeeds or fails alike, for a path and for the same
    path with a trailing separator; only the path quoted in its error
    messages differs. *)
Theorem construct_ignores_trailing_separator : forall (w : World) (p : string),
  let '((w1, h1), r1) := construct (w, fresh_plugin p) in
  let '((w2, h2), r2) := construct (w, fresh_plugin (p ++ "/")) in
  w1 = w2 /\ foundPluginDescription h1 = foundPluginDescription h2 /\
  pluginInstance h1 = pluginInstance h2 /\ (r1 = Ok tt <-> r2 = Ok tt).
Proof.
  intros w p.
  exact (construct_depends_on_stripped_path w p (p ++ "/") (eq_sym (trim_separator_app p))).
Qed.

End PathFacts.

(** ** The model on concrete inputs *)

Module Examples.

(** A Linux machine on which /plugins/Gain.vst3, /plugins/Broken.vst3 and
    /plugins/Empty.vst3 are regular files. *)
#[local] Instance linux_host : PluginHost :=
  Toy.host ["/"; "/plugins/Gain.vst3"; "/plugins/Broken.vst3"; "/plugins/Empty.vst3"]
           [("/plugins/Gain.vst3", ["Gain"; "Mix"]); ("/plugins/Broken.vst3", ["Broken"])]
           true.

Definition gain_plugin : ExternalPlugin :=
  mkPlugin "/plugins/Gain.vst3" "Gain" (Some Toy.stereo).

Definition synth_plugin : ExternalPlugin :=
  mkPlugin "/plugins/Synth.vst3" "Synth" (Some Toy.synth).

Definition stereo_context : ProcessContext := mkContext false [] [[1; 2]; [3; 4]].
Definition three_channel_context : ProcessContext :=
  mkContext false [] [[1; 2]; [3; 4]; [5; 6]].

(** The "Gain" effect with its sidechain input bus, as loaded. *)
Definition sidechain_plugin : ExternalPlugin :=
  mkPlugin "/plugins/Gain.vst3" "Gain" (Some Toy.gain).

(** [prepare] with preparation calls that leave the instance alone. *)
Definition prepare_plain (spec : ProcessSpec Z) : M unit :=
  prepare Z (fun i _ _ => i) (fun i _ _ => i) (fun i _ => i) spec.

Example load_gain :
  snd (construct (initial_world, fresh_plugin "/plugins/Gain.vst3")) = Ok tt.
Proof. reflexivity. Qed.

Example load_broken :
  snd (construct (initial_world, fresh_plugin "/plugins/Broken.vst3")) =
  Throw (ImportError "Unable to load plugin /plugins/Broken.vst3: Unable to load VST-3 plug-in file").
Proof. reflexivity. Qed.

Example process_stereo :
  process (Some Toy.stereo) stereo_context = ([[2; 4]; [6; 8]], Ok tt).
Proof. reflexivity. Qed.

(** C1: a construction that fails leaves the message manager alive while
    no plugin is active. *)
Lemma counter_and_message_manager_counterexample :
  let s := run initial_sys [Construct "/plugins/Missing.vst3"] in
  ~ (message_manager (sys_world s) = true <-> 0 < num_active (sys_world s)).
Proof. cbn; intros [Himp _]; specialize (Himp eq_refl); lia. Qed.

(** C2: the sidechain effect prepared for two channels (which disables
    its sidechain bus) and then given an in-place block of three channels.
    Its main input bus expects two channels, so the claim asks for a
    ChannelMismatchError; [process] instead writes [channelPointers[2]]
    past the end of its two-entry vector before reaching the channel
    checks: undefined behaviour. *)
Lemma process_channel_mismatch_overflow :
  let prepared := prepare_plain (mkSpec 44100 512 2) (initial_world, sidechain_plugin) in
  snd prepared = Ok tt /\
  exists i, pluginInstance (snd (fst prepared)) = Some i /\
    getMainBusNumInputChannels i = 2%nat /\
    length (outputBlock three_channel_context) = 3%nat /\
    pluginBufferChannelCount i = 2%nat /\
    process (Some i) three_channel_context = (outputBlock three_channel_context, Undefined).
Proof.
  cbv zeta; split; [reflexivity|].
  exists (Toy.mkTInst "Gain" [mkBus true 2; mkBus false 2] [mkBus true 2] EmptyString [1; 2]%nat).
  split; [reflexivity|]; split; [reflexivity|]; split; [reflexivity|].
  split; reflexivity.
Qed.

(** Scratch channels of no samples: the unprepared sidechain effect, with
    four buffer channels, processes an empty stereo block normally. *)
Example process_empty_block_with_scratch :
  process (Some Toy.gain) (mkContext false [] [[]; []]) = ([[]; []], Ok tt).
Proof. reflexivity. Qed.

(** C3: a plugin without a main input bus is refused with a message that
    names neither the requested count nor any bus's channel count. *)
Lemma setNumChannels_counterexample :
  exists msg,
    snd (setNumChannels 2 (initial_world, synth_plugin)) = Throw (InvalidArgument msg) /\
    Str.contains msg (Str.of_Z 2) = false.
Proof. eexists; split; reflexivity. Qed.

Lemma setNumChannels_result_witness :
  getBus (disableNonMainBuses Toy.stereo) false 0 <> None /\
  let '((w', h'), r) :=
    setNumChannels 2 (initial_world, mkPlugin "/plugins/Gain.vst3" "Gain" (Some Toy.stereo)) in
  w' = initial_world /\
  exists i', pluginInstance h' = Some i' /\
  ((r = Ok tt /\
    Z.of_nat (channelCountOfBus i' true 0) = 2 /\
    Z.of_nat (channelCountOfBus i' false 0) = 2) \/
   (exists msg, r = Throw (InvalidArgument msg) /\
    Str.contains msg (getName i') = true /\
    ((getBus (disableNonMainBuses Toy.stereo) true 0 <> None /\
      (Z.of_nat (channelCountOfBus i' true 0) <> 2 \/
       Z.of_nat (channelCountOfBus i' false 0) <> 2) /\
      Str.contains msg (Str.of_Z 2) = true /\
      Str.contains msg (Str.of_nat (channelCountOfBus i' true 0)) = true /\
      Str.contains msg (Str.of_nat (channelCountOfBus i' false 0)) = true) \/
     (getBus (disableNonMainBuses Toy.stereo) true 0 = None /\
      Str.contains msg "does not accept audio input" = true)))).
Proof.
  assert (Hout : getBus (disableNonMainBuses Toy.stereo) false 0 <> None) by discriminate.
  exact (conj Hout (setNumChannels_result initial_world "/plugins/Gain.vst3" "Gain"
                      Toy.stereo 2 Hout)).
Defined.

(** C5: "/plugins/Gain.vst3/" does not exist (Gain.vst3 is a regular
    file, so stat fails on the path with a trailing separator), yet its
    stripped form passes the existence check and is scanned and loaded. *)
Lemma construct_missing_file_counterexample :
  stat_exists "/plugins/Gain.vst3/" = false /\
  snd (construct (initial_world, fresh_plugin "/plugins/Gain.vst3/")) = Ok tt /\
  In (ScanFile "/plugins/Gain.vst3")
     (trace (fst (fst (construct (initial_world, fresh_plugin "/plugins/Gain.vst3/"))))).
Proof. split; [reflexivity | split; [reflexivity | cbn; tauto]]. Qed.

Lemma construct_missing_file_witness :
  juceFileExists (Str.trim_separators_at_end "/plugins/Missing.vst3") = false /\
  let '((w', h'), r) := construct (initial_world, fresh_plugin "/plugins/Missing.vst3") in
  r = Throw (ImportError ("Unable to load plugin " ++ "/plugins/Missing.vst3" ++
                          ": plugin file not found.")) /\
  trace w' = ([MessageManagerGetInstance] ++ trace initial_world)%list /\
  num_active w' = num_active initial_world /\
  pluginInstance h' = None.
Proof.
  assert (Hex : juceFileExists (Str.trim_separators_at_end "/plugins/Missing.vst3") = false)
    by reflexivity.
  exact (conj Hex (construct_missing_file initial_world "/plugins/Missing.vst3" Hex)).
Defined.

(** C6: the root directory exists, but the path "/" strips to the empty
    path, which fails the existence check: the constructor reports the
    file as not found and its message carries no ldd hint. *)
Lemma construct_no_description_counterexample :
  stat_exists "/" = true /\
  scanAndAddFile "/" = [] /\
  exists msg,
    snd (construct (initial_world, fresh_plugin "/")) = Throw (ImportError msg) /\
    Str.contains msg "ldd" = false.
Proof. split; [reflexivity | split; [reflexivity | eexists; split; reflexivity]]. Qed.

Lemma construct_no_description_witness :
  juceFileExists (Str.trim_separators_at_end "/plugins/Empty.vst3") = true /\
  scanAndAddFile (Str.trim_separators_at_end "/plugins/Empty.vst3") = [] /\
  let bundle := absolute_path (Str.trim_separators_at_end "/plugins/Empty.vst3") in
  let machine := match uname_machine with Some m => m | None => EmptyString end in
  let '((w', h'), r) := construct (initial_world, fresh_plugin "/plugins/Empty.vst3") in
  (exists msg,
     r = Throw (ImportError msg) /\
     Str.contains msg "unsupported plugin format or load failure" = true /\
     (is_linux = true ->
      Str.contains msg "ldd" = true /\
      Str.contains msg
        (getChildFile (getChildFile (getChildFile bundle "Contents") (machine ++ "-linux"))
                      (getFileNameWithoutExtension bundle ++ ".so")) = true)) /\
  trace w' = ([ScanFile (Str.trim_separators_at_end "/plugins/Empty.vst3");
               MessageManagerGetInstance] ++ trace initial_world)%list /\
  num_active w' = num_active initial_world /\
  pluginInstance h' = None.
Proof.
  assert (Hex : juceFileExists (Str.trim_separators_at_end "/plugins/Empty.vst3") = true)
    by reflexivity.
  assert (Hscan : scanAndAddFile (Str.trim_separators_at_end "/plugins/Empty.vst3") = [])
    by reflexivity.
  exact (conj Hex (conj Hscan
           (construct_no_description initial_world "/plugins/Empty.vst3" Hex Hscan))).
Defined.

Example empty_bundle_hint :
  snd (construct (initial_world, fresh_plugin "/plugins/Empty.vst3")) =
  Throw (ImportError ("Unable to load plugin /plugins/Empty.vst3: unsupported plugin " ++
    "format or load failure. Plugin files or shared library dependencies may be " ++
    "missing. (Try running `ldd " ++ dquote ++
    "/plugins/Empty.vst3/Contents/x86_64-linux/Empty.so" ++ dquote ++
    "` to see which dependencies might be missing.).")).
Proof. reflexivity. Qed.

Lemma construct_keeps_first_description_witness :
  juceFileExists (Str.trim_separators_at_end "/plugins/Gain.vst3") = true /\
  scanAndAddFile (Str.trim_separators_at_end "/plugins/Gain.vst3") = ["Gain"; "Mix"] /\
  createPluginInstance "Gain" 44100 8192 = (Some Toy.gain, EmptyString) /\
  let '((w', h'), r) := construct (initial_world, fresh_plugin "/plugins/Gain.vst3") in
  r = Ok tt /\
  foundPluginDescription h' = "Gain" /\
  pluginInstance h' = Some (instReset (setStateInformation Toy.gain empty_blob)) /\
  trace w' = ([ResetInstance; SetState empty_blob; AdjustActiveCount 1;
               CreateInstance "Gain" 44100 8192;
               ScanFile (Str.trim_separators_at_end "/plugins/Gain.vst3");
               MessageManagerGetInstance] ++ trace initial_world)%list.
Proof.
  assert (Hex : juceFileExists (Str.trim_separators_at_end "/plugins/Gain.vst3") = true)
    by reflexivity.
  assert (Hscan : scanAndAddFile (Str.trim_separators_at_end "/plugins/Gain.vst3") =
                  ["Gain"; "Mix"]) by reflexivity.
  assert (Hc : createPluginInstance "Gain" 44100 8192 = (Some Toy.gain, EmptyString))
    by reflexivity.
  pose proof (construct_keeps_first_description initial_world "/plugins/Gain.vst3" "Gain"
                ["Mix"] Toy.gain EmptyString Hex Hscan Hc) as Hload.
  split; [exact Hex|]; split; [exact Hscan|]; split; [exact Hc|].
  cbv beta zeta in Hload; exact Hload.
Defined.

End Examples.

(** ** More runs of the model *)

Module MoreExamples.

#[local] Instance linux_host : PluginHost :=
  Toy.host ["/plugins/Gain.vst3"] [("/plugins/Gain.vst3", ["Gain"])] true.

Definition stereo_plugin : ExternalPlugin :=
  mkPlugin "/plugins/Gain.vst3" "Gain" (Some Toy.stereo).

Definition stereo_block : ProcessContext := mkContext false [] [[1; 2]; [3; 4]].
Definition surround_block : ProcessContext := mkContext false [] [[1]; [2]; [3]].

(** The toy plugin's preparation calls leave its buses alone. *)
Definition toy_setRate (i : Inst) (_ : Z) (_ : Z) : Inst := i.
Definition toy_prepareToPlay (i : Inst) (_ : Z) (_ : Z) : Inst := i.
Definition toy_setNonRealtime (i : Inst) (_ : bool) : Inst := i.

Definition toy_prepare (spec : ProcessSpec Z) : M unit :=
  prepare Z toy_setRate toy_prepareToPlay toy_setNonRealtime spec.

Lemma getNumChannels_after_setNumChannels_witness :
  setNumChannels 2 (initial_world, stereo_plugin) =
    ((initial_world, stereo_plugin), Ok tt) /\
  Z.of_nat (getNumChannels stereo_plugin) = 2 /\ initial_world = initial_world.
Proof.
  assert (E : setNumChannels 2 (initial_world, stereo_plugin) =
                ((initial_world, stereo_plugin), Ok tt)) by reflexivity.
  pose proof (getNumChannels_after_setNumChannels initial_world initial_world
                "/plugins/Gain.vst3" "Gain" Toy.stereo 2 stereo_plugin E) as Hn.
  split; [exact E | exact Hn].
Defined.

Lemma prepare_sets_channel_count_witness :
  toy_prepare (mkSpec 48000 512 2) (initial_world, stereo_plugin) =
    ((initial_world, stereo_plugin), Ok tt) /\
  Z.of_nat (getNumChannels stereo_plugin) = numChannels (mkSpec 48000 512 2).
Proof.
  assert (E : toy_prepare (mkSpec 48000 512 2) (initial_world, stereo_plugin) =
                ((initial_world, stereo_plugin), Ok tt)) by reflexivity.
  assert (H1 : forall j r b, getBus (toy_setRate j r b) true 0 = getBus j true 0)
    by reflexivity.
  assert (H2 : forall j r b, getBus (toy_prepareToPlay j r b) true 0 = getBus j true 0)
    by reflexivity.
  assert (H3 : forall j b, getBus (toy_setNonRealtime j b) true 0 = getBus j true 0)
    by reflexivity.
  assert (Hn : 0 <= numChannels (mkSpec 48000 512 2) < 2 ^ 31) by (cbn; lia).
  pose proof (prepare_sets_channel_count Z toy_setRate toy_prepareToPlay toy_setNonRealtime
                (mkSpec 48000 512 2) initial_world initial_world "/plugins/Gain.vst3" "Gain"
                Toy.stereo stereo_plugin H1 H2 H3 Hn E) as Hc.
  split; [exact E | exact Hc].
Defined.

Lemma prepare_rejects_wrapped_channel_count_witness :
  2 ^ 31 <= numChannels (mkSpec 48000 512 (2 ^ 32 - 1)) < 2 ^ 32 /\
  uint32_to_int (numChannels (mkSpec 48000 512 (2 ^ 32 - 1))) = -1 /\
  snd (toy_prepare (mkSpec 48000 512 (2 ^ 32 - 1)) (initial_world, stereo_plugin)) <> Ok tt.
Proof.
  assert (Hn : 2 ^ 31 <= numChannels (mkSpec 48000 512 (2 ^ 32 - 1)) < 2 ^ 32)
    by (cbn; lia).
  pose proof (prepare_rejects_wrapped_channel_count Z toy_setRate toy_prepareToPlay
                toy_setNonRealtime (mkSpec 48000 512 (2 ^ 32 - 1)) initial_world
                "/plugins/Gain.vst3" "Gain" Toy.stereo Hn) as [Hc Hr].
  split; [exact Hn|]; split; [rewrite Hc; reflexivity | exact Hr].
Defined.

Lemma reinstantiate_preserves_state_witness :
  (forall k b, getStateInformation (instReset (setStateInformation k b)) = b) /\
  createPluginInstance "Gain" ExternalLoadSampleRate ExternalLoadMaximumBlockSize =
    (Some Toy.gain, EmptyString) /\
  exists w' i',
    reinstantiatePlugin (initial_world, stereo_plugin) =
      ((w', mkPlugin "/plugins/Gain.vst3" "Gain" (Some i')), Ok tt) /\
    getStateInformation i' = getStateInformation Toy.stereo /\
    num_active w' = num_active initial_world.
Proof.
  assert (Hlaw : forall k b, getStateInformation (instReset (setStateInformation k b)) = b)
    by reflexivity.
  assert (Hc : createPluginInstance "Gain" ExternalLoadSampleRate ExternalLoadMaximumBlockSize =
                 (Some Toy.gain, EmptyString)) by reflexivity.
  pose proof (reinstantiate_preserves_state initial_world "/plugins/Gain.vst3" "Gain"
                Toy.stereo Toy.gain EmptyString Hlaw Hc) as Hs.
  split; [exact Hlaw|]; split; [exact Hc | exact Hs].
Defined.

Lemma process_in_place_success_witness :
  usesSeparateInputAndOutputBlocks stereo_block = false /\
  pluginBufferChannelCount Toy.stereo = length (outputBlock stereo_block) /\
  getMainBusNumInputChannels Toy.stereo = length (outputBlock stereo_block) /\
  (length (outputBlock stereo_block) <= getMainBusNumOutputChannels Toy.stereo)%nat /\
  process (Some Toy.stereo) stereo_block = ([[2; 4]; [6; 8]], Ok tt).
Proof.
  assert (H1 : usesSeparateInputAndOutputBlocks stereo_block = false) by reflexivity.
  assert (H2 : pluginBufferChannelCount Toy.stereo = length (outputBlock stereo_block))
    by reflexivity.
  assert (H3 : getMainBusNumInputChannels Toy.stereo = length (outputBlock stereo_block))
    by reflexivity.
  assert (H4 : (length (outputBlock stereo_block) <= getMainBusNumOutputChannels Toy.stereo)%nat)
    by (cbn; lia).
  pose proof (process_in_place_success Toy.stereo stereo_block H1 H2 H3 H4) as Hp.
  split; [exact H1|]; split; [exact H2|]; split; [exact H3|]; split; [exact H4|].
  cbv zeta in Hp; etransitivity; [exact Hp | reflexivity].
Defined.

(** The toy "Gain" instance keeps its second (sidechain) input bus
    enabled: four buffer channels for a stereo block. *)
Lemma process_uses_freed_scratch_witness :
  usesSeparateInputAndOutputBlocks stereo_block = false /\
  (0 < numSamples (outputBlock stereo_block))%nat /\
  (length (outputBlock stereo_block) < pluginBufferChannelCount Toy.gain)%nat /\
  getMainBusNumInputChannels Toy.gain = length (outputBlock stereo_block) /\
  (length (outputBlock stereo_block) <= getMainBusNumOutputChannels Toy.gain)%nat /\
  process (Some Toy.gain) stereo_block = (outputBlock stereo_block, Undefined).
Proof.
  assert (H1 : usesSeparateInputAndOutputBlocks stereo_block = false) by reflexivity.
  assert (H2 : (length (outputBlock stereo_block) < pluginBufferChannelCount Toy.gain)%nat)
    by (cbn; lia).
  assert (H3 : getMainBusNumInputChannels Toy.gain = length (outputBlock stereo_block))
    by reflexivity.
  assert (H4 : (length (outputBlock stereo_block) <= getMainBusNumOutputChannels Toy.gain)%nat)
    by (cbn; lia).
  assert (H0 : (0 < numSamples (outputBlock stereo_block))%nat) by (cbn; lia).
  pose proof (process_uses_freed_scratch Toy.gain stereo_block H1 H0 H2 H3 H4) as Hp.
  split; [exact H1|]; split; [exact H0|]; split; [exact H2|]; split; [exact H3|].
  split; [exact H4 | exact Hp].
Defined.

Lemma process_writes_out_of_range_witness :
  usesSeparateInputAndOutputBlocks surround_block = false /\
  (pluginBufferChannelCount Toy.stereo < length (outputBlock surround_block))%nat /\
  process (Some Toy.stereo) surround_block = (outputBlock surround_block, Undefined).
Proof.
  assert (H1 : usesSeparateInputAndOutputBlocks surround_block = false) by reflexivity.
  assert (H2 : (pluginBufferChannelCount Toy.stereo < length (outputBlock surround_block))%nat)
    by (cbn; lia).
  pose proof (process_writes_out_of_range Toy.stereo surround_block H1 H2) as Hp.
  split; [exact H1|]; split; [exact H2 | exact Hp].
Defined.

Lemma getParameter_by_own_name_witness :
  pluginParameters (Some Toy.stereo) = Ok ["Gain"; "Mix"; "Gain"] /\
  In "Mix" ["Gain"; "Mix"; "Gain"] /\
  exists q, getParameter (Some Toy.stereo) (parameterName "Mix") = Ok (Some q) /\
            parameterName q = parameterName "Mix" /\
            (NoDup (map parameterName ["Gain"; "Mix"; "Gain"]) -> q = "Mix").
Proof.
  assert (Hps : pluginParameters (Some Toy.stereo) = Ok ["Gain"; "Mix"; "Gain"])
    by reflexivity.
  assert (Hin : In "Mix" ["Gain"; "Mix"; "Gain"]) by (cbn; tauto).
  pose proof (getParameter_by_own_name Toy.stereo _ "Mix" Hps Hin) as Hq.
  split; [exact Hps|]; split; [exact Hin | exact Hq].
Defined.

(** A Components folder holding a bundle with a nested bundle-like entry,
    a vendor folder with a bundle, and a plain file: the nested entry is
    not reported. *)
Definition is_component (p : string) : bool :=
  String.eqb (substring (String.length p - 10) 10 p) ".component".

Definition components : list FsEntry :=
  [FsDir "Gain.component" [FsDir "Contents" [FsFile "Inner.component"]];
   FsDir "Vendor" [FsDir "Synth.component" []];
   FsFile "readme.txt"].

Example component_search :
  recursiveFileSearch is_component true "/Library/Audio/Plug-Ins/Components" components =
  ["/Library/Audio/Plug-Ins/Components/Gain.component";
   "/Library/Audio/Plug-Ins/Components/Vendor/Synth.component"].
Proof. reflexivity. Qed.

End MoreExamples.
